(** * discordgo: the [User] entity of user.go

    A shallow embedding of [user.go]: the [User] record, its string-building
    accessors, the mention test, and the three methods that talk to the
    session ([CreateDM], [SendMessage], [SendMessageComplex], [GetHistory]).

    Go values are represented as follows.
    - [string] is a Rocq [string] (a sequence of bytes), [==] is [String.eqb];
    - a pointer [*T] is [ptr T = option T], [nil] being [None];
    - an [error] is [option errorValue], [nil] being [None];
    - [int] is [Z] (the value is only passed on, never computed with);
    - a slice [[]T] is a [list T] (slices are only read or passed on);
    - a method with a pointer receiver that mutates it returns the receiver
      after the call next to its result;
    - the receiver of a method is a [User], the object a non-nil [u] points
      to; [IsMentionedIn_ptr] and [CreateDM_ptr] are [IsMentionedIn] and
      [CreateDM] called through a receiver pointer that may be nil;
    - a run-time panic (a nil-pointer dereference, or one raised inside a
      collaborator) is the outcome [Panicked]. *)

From Stdlib Require Import String List ZArith Bool Lia Permutation.
From ExtLib Require Import Structures.Monad.
Import ListNotations.
Import MonadNotation.

Local Open Scope list_scope.
Local Open Scope string_scope.
Local Open Scope monad_scope.

(** ** Go values *)

Definition ptr (A : Type) : Type := option A.

Inductive outcome (A : Type) : Type :=
| Returned (a : A)
| Panicked.

Arguments Returned {A} a.
Arguments Panicked {A}.

(** [strings.HasPrefix(s, prefix)]:
    [len(s) >= len(prefix) && s[0:len(prefix)] == prefix]. *)
Definition HasPrefix (s prefix : string) : bool :=
  (String.length prefix <=? String.length s)%nat
  && String.eqb (substring 0 (String.length prefix) s) prefix.

(** ** The channel type

    [Channel] is declared in another file of the package.  [user.go] stores
    a pointer to one in [User] and reads one field of it, [ID]. *)
Class Entities : Type := {
  Channel : Type;
  ChannelID : Channel -> string
}.

(** ** The [User] record *)

Record User `{Entities} : Type := mkUser {
  ID : string;
  Email : string;
  Username : string;
  Avatar : string;
  Locale : string;
  Discriminator : string;
  Token : string;
  Verified : bool;
  MFAEnabled : bool;
  DMChannel : ptr Channel;
  Bot : bool
}.

(** The assignment [u.DMChannel = channel]. *)
Definition set_DMChannel `{Entities} (u : User) (channel : ptr Channel) : User :=
  {| ID := ID u; Email := Email u; Username := Username u; Avatar := Avatar u;
     Locale := Locale u; Discriminator := Discriminator u; Token := Token u;
     Verified := Verified u; MFAEnabled := MFAEnabled u;
     DMChannel := channel; Bot := Bot u |}.

(** ** Collaborators

    What [user.go] uses and does not define: the other types it mentions
    (of [Message] it reads two fields), the three avatar endpoints, and the
    operations of the session and of a channel.  [Remote] is everything
    those operations can read and change (the session object and the
    service behind it); an operation takes it and gives it back, with
    either its Go results or a panic. *)
Class Collaborators `{Entities} : Type := {
  Message : Type;
  MentionEveryone : Message -> bool;
  Mentions : Message -> list (ptr User);
  MessageEmbed : Type;
  File : Type;
  MessageSend : Type;
  errorValue : Type;

  EndpointDefaultUserAvatar : string -> string;
  EndpointUserAvatarAnimated : string -> string -> string;
  EndpointUserAvatar : string -> string -> string;

  Remote : Type;
  (* s.UserChannelCreate(recipientID string), results: *Channel, error *)
  UserChannelCreate :
    string -> Remote -> outcome (ptr Channel * option errorValue) * Remote;
  (* c.SendMessage(s, content string, embed *MessageEmbed, files []*File),
     receiver c *Channel, results: *Message, error *)
  ChannelSendMessage :
    ptr Channel -> string -> ptr MessageEmbed -> list (ptr File) ->
    Remote -> outcome (ptr Message * option errorValue) * Remote;
  (* c.SendMessageComplex(s, data *MessageSend),
     receiver c *Channel, results: *Message, error *)
  ChannelSendMessageComplex :
    ptr Channel -> ptr MessageSend ->
    Remote -> outcome (ptr Message * option errorValue) * Remote;
  (* s.ChannelMessages(channelID string, limit int,
       beforeID, afterID, aroundID string), results: []*Message, error *)
  ChannelMessages :
    string -> Z -> string -> string -> string ->
    Remote -> outcome (list (ptr Message) * option errorValue) * Remote
}.

Definition error `{Collaborators} : Type := option errorValue.

Section Methods.

Context `{Collaborators}.

(** *** Pure accessors *)

Definition String (u : User) : string :=
  Username u ++ "#" ++ Discriminator u.

Definition Mention (u : User) : string :=
  "<@" ++ ID u ++ ">".

Definition AvatarURL (u : User) (size : string) : string :=
  let URL :=
    if String.eqb (Avatar u) "" then
      EndpointDefaultUserAvatar (Discriminator u)
    else if HasPrefix (Avatar u) "a_" then
      EndpointUserAvatarAnimated (ID u) (Avatar u)
    else
      EndpointUserAvatar (ID u) (Avatar u) in
  if negb (String.eqb size "") then URL ++ "?size=" ++ size
  else URL.

Definition IsAvatarAnimated (u : User) : bool :=
  HasPrefix (Avatar u) "a_".

(** The loop [for _, user := range message.Mentions] of [IsMentionedIn];
    [user.ID] on a nil entry panics. *)
Fixpoint mentions_loop (uID : string) (mentions : list (ptr User))
  : outcome bool :=
  match mentions with
  | [] => Returned false
  | None :: _ => Panicked
  | Some user :: rest =>
      if String.eqb (ID user) uID then Returned true
      else mentions_loop uID rest
  end.

Definition IsMentionedIn (u : User) (message : ptr Message) : outcome bool :=
  match message with
  | None => Panicked
  | Some m =>
      if MentionEveryone m then Returned true
      else mentions_loop (ID u) (Mentions m)
  end.

(** *** Methods that use the session *)

(** A call made to a collaborator, with its arguments. *)
Inductive Call : Type :=
| CallUserChannelCreate (recipientID : string)
| CallChannelSendMessage (c : ptr Channel) (content : string)
    (embed : ptr MessageEmbed) (files : list (ptr File))
| CallChannelSendMessageComplex (c : ptr Channel) (data : ptr MessageSend)
| CallChannelMessages (channelID : string) (limit : Z)
    (beforeID afterID aroundID : string).

(** The session [s]: what the collaborators act on, and the calls made
    through it so far, oldest first. *)
Record Session : Type := mkSession {
  remote : Remote;
  history : list Call
}.

(** What a method call leaves behind: its Go results or a panic, the
    receiver [*u], and the session. *)
Record Res (A : Type) : Type := mkRes {
  result : outcome A;
  receiver : User;
  session : Session
}.

Arguments mkRes {A} result receiver session.
Arguments result {A} r.
Arguments receiver {A} r.
Arguments session {A} r.

Definition M (A : Type) : Type := User -> Session -> Res A.

Definition M_ret {A} (a : A) : M A :=
  fun u s => mkRes (Returned a) u s.

Definition M_bind {A B} (m : M A) (k : A -> M B) : M B :=
  fun u s =>
    let r := m u s in
    match result r with
    | Returned a => k a (receiver r) (session r)
    | Panicked => mkRes Panicked (receiver r) (session r)
    end.

#[local] Instance Monad_M : Monad M :=
  {| ret := @M_ret; bind := @M_bind |}.

(** The receiver, [*u]. *)
Definition this : M User :=
  fun u s => mkRes (Returned u) u s.

(** [u.DMChannel = channel]. *)
Definition assign_DMChannel (channel : ptr Channel) : M unit :=
  fun u s => mkRes (Returned tt) (set_DMChannel u channel) s.

(** A nil-pointer dereference. *)
Definition panic {A} : M A :=
  fun u s => mkRes Panicked u s.

(** [p.f] for a pointer [p]. *)
Definition deref {A} (p : ptr A) : M A :=
  match p with
  | Some a => ret a
  | None => panic
  end.

(** The session once the call [c] has been made through it and has left
    the remote state [r]. *)
Definition record_call (s : Session) (c : Call) (r : Remote) : Session :=
  mkSession r (history s ++ [c])%list.

(** Calling a collaborator: the call is made and recorded; its results, or
    its panic, are those of the method so far. *)
Definition invoke {A} (c : Call) (op : Remote -> outcome A * Remote) : M A :=
  fun u s =>
    let (o, r) := op (remote s) in
    mkRes o u (record_call s c r).

Definition session_UserChannelCreate (recipientID : string)
  : M (ptr Channel * error) :=
  invoke (CallUserChannelCreate recipientID) (UserChannelCreate recipientID).

Definition channel_SendMessage (c : ptr Channel) (content : string)
    (embed : ptr MessageEmbed) (files : list (ptr File))
  : M (ptr Message * error) :=
  invoke (CallChannelSendMessage c content embed files)
         (ChannelSendMessage c content embed files).

Definition channel_SendMessageComplex (c : ptr Channel)
    (data : ptr MessageSend) : M (ptr Message * error) :=
  invoke (CallChannelSendMessageComplex c data)
         (ChannelSendMessageComplex c data).

Definition session_ChannelMessages (channelID : string) (limit : Z)
    (beforeID afterID aroundID : string) : M (list (ptr Message) * error) :=
  invoke (CallChannelMessages channelID limit beforeID afterID aroundID)
         (ChannelMessages channelID limit beforeID afterID aroundID).

Definition CreateDM : M error :=
  u <- this ;;
  match DMChannel u with
  | Some _ => ret None
  | None =>
      '(channel, err) <- session_UserChannelCreate (ID u) ;;
      match err with
      | None => assign_DMChannel channel
      | Some _ => ret tt
      end ;;
      ret err
  end.

Definition SendMessage (content : string) (embed : ptr MessageEmbed)
    (files : list (ptr File)) : M (ptr Message * error) :=
  let delegate :=
    u <- this ;;
    channel_SendMessage (DMChannel u) content embed files in
  u <- this ;;
  match DMChannel u with
  | None =>
      err <- CreateDM ;;
      match err with
      | Some _ => ret (None, err)
      | None => delegate
      end
  | Some _ => delegate
  end.

Definition SendMessageComplex (data : ptr MessageSend)
  : M (ptr Message * error) :=
  let delegate :=
    u <- this ;;
    channel_SendMessageComplex (DMChannel u) data in
  u <- this ;;
  match DMChannel u with
  | None =>
      err <- CreateDM ;;
      match err with
      | Some _ => ret (None, err)
      | None => delegate
      end
  | Some _ => delegate
  end.

Definition GetHistory (limit : Z) (beforeID afterID aroundID : string)
  : M (list (ptr Message) * error) :=
  u <- this ;;
  c <- deref (DMChannel u) ;;
  session_ChannelMessages (ChannelID c) limit beforeID afterID aroundID.

(** A run of [m] that begins by asking the session for a DM channel with
    the receiver. *)
Definition creates_DM_first {A} (m : M A) (u : User) (s : Session) : Prop :=
  exists rest,
    history (session (m u s))
    = (history s ++ CallUserChannelCreate (ID u) :: rest)%list.

(** *** Methods called through a receiver that may be nil *)

(** The loop of [IsMentionedIn] for a receiver pointer [u]: the comparison
    [user.ID == u.ID] reads [user.ID], then [u.ID], and panics on whichever
    pointer is nil. *)
Fixpoint mentions_loop_ptr (u : ptr User) (mentions : list (ptr User))
  : outcome bool :=
  match mentions with
  | [] => Returned false
  | None :: _ => Panicked
  | Some user :: rest =>
      match u with
      | None => Panicked
      | Some u0 =>
          if String.eqb (ID user) (ID u0) then Returned true
          else mentions_loop_ptr u rest
      end
  end.

Definition IsMentionedIn_ptr (u : ptr User) (message : ptr Message)
  : outcome bool :=
  match message with
  | None => Panicked
  | Some m =>
      if MentionEveryone m then Returned true
      else mentions_loop_ptr u (Mentions m)
  end.

(** What a call through a receiver pointer leaves behind: as [Res], with
    the object the pointer leads to, if any. *)
Record PtrRes (A : Type) : Type := mkPtrRes {
  ptr_result : outcome A;
  pointee : ptr User;
  ptr_session : Session
}.

Arguments mkPtrRes {A} ptr_result pointee ptr_session.
Arguments ptr_result {A} p.
Arguments pointee {A} p.
Arguments ptr_session {A} p.

(** [CreateDM] begins by reading [u.DMChannel]: on a nil [u] it panics
    there, before any call. *)
Definition CreateDM_ptr (u : ptr User) (s : Session) : PtrRes error :=
  match u with
  | None => mkPtrRes Panicked None s
  | Some u0 =>
      let r := CreateDM u0 s in
      mkPtrRes (result r) (Some (receiver r)) (session r)
  end.

End Methods.

Arguments mkRes {_ _ A} result receiver session.
Arguments result {_ _ A} r.
Arguments receiver {_ _ A} r.
Arguments session {_ _ A} r.
Arguments mkPtrRes {_ _ A} ptr_result pointee ptr_session.
Arguments ptr_result {_ _ A} p.
Arguments pointee {_ _ A} p.
Arguments ptr_session {_ _ A} p.

(** ** A concrete instance

    A small service on which the methods can be evaluated: a channel is its
    ID, creating a DM channel fails for the empty recipient ID, and the
    remote state is the list of contents sent so far, newest first. *)

Record SampleChannel : Type := { sample_id : string }.

#[export] Instance sample_entities : Entities :=
  {| Channel := SampleChannel; ChannelID := sample_id |}.

Record SampleMessage : Type := {
  sample_everyone : bool;
  sample_mentions : list (ptr User)
}.

Definition sample_reply : SampleMessage :=
  {| sample_everyone := false; sample_mentions := [] |}.

Definition sample_create (recipientID : string) (r : list string)
  : outcome (ptr SampleChannel * option string) * list string :=
  if String.eqb recipientID "" then
    (Returned (None, Some "Unknown User"), r)
  else
    (Returned (Some {| sample_id := "dm-" ++ recipientID |}, None), r).

Definition sample_send (c : ptr SampleChannel) (content : string)
    (embed : ptr unit) (files : list (ptr string)) (r : list string)
  : outcome (ptr SampleMessage * option string) * list string :=
  match c with
  | None => (Panicked, r)
  | Some _ => (Returned (Some sample_reply, None), content :: r)
  end.

Definition sample_send_complex (c : ptr SampleChannel) (data : ptr string)
    (r : list string)
  : outcome (ptr SampleMessage * option string) * list string :=
  match c, data with
  | Some _, Some content => (Returned (Some sample_reply, None), content :: r)
  | _, _ => (Panicked, r)
  end.

Definition sample_messages (channelID : string) (limit : Z)
    (beforeID afterID aroundID : string) (r : list string)
  : outcome (list (ptr SampleMessage) * option string) * list string :=
  (Returned ([Some sample_reply], None), r).

#[export] Instance sample_service : Collaborators := {|
  Message := SampleMessage;
  MentionEveryone := sample_everyone;
  Mentions := sample_mentions;
  MessageEmbed := unit;
  File := string;
  MessageSend := string;
  errorValue := string;
  EndpointDefaultUserAvatar := fun d =>
    "https://cdn.example/embed/avatars/" ++ d ++ ".png";
  EndpointUserAvatarAnimated := fun uID aID =>
    "https://cdn.example/avatars/" ++ uID ++ "/" ++ aID ++ ".gif";
  EndpointUserAvatar := fun uID aID =>
    "https://cdn.example/avatars/" ++ uID ++ "/" ++ aID ++ ".png";
  Remote := list string;
  UserChannelCreate := sample_create;
  ChannelSendMessage := sample_send;
  ChannelSendMessageComplex := sample_send_complex;
  ChannelMessages := sample_messages
|}.

(** A user with the given ID, avatar hash and DM channel. *)
Definition sample_user (id avatar : string) (dm : ptr SampleChannel) : User :=
  {| ID := id; Email := ""; Username := "gopher"; Avatar := avatar;
     Locale := "en-US"; Discriminator := "0042"; Token := "";
     Verified := true; MFAEnabled := false; DMChannel := dm; Bot := false |}.

Definition sample_session : Session :=
  {| remote := []; history := [] |}.

Definition dm7 : SampleChannel := {| sample_id := "dm-7" |}.

(** A user with an animated avatar and no DM channel yet; the same user
    with the channel in place; a user the service knows nothing of. *)
Definition gopher : User := sample_user "7" "a_ff" None.
Definition gopher_dm : User := sample_user "7" "a_ff" (Some dm7).
Definition nameless : User := sample_user "" "" None.

(** A message to everyone that names nobody, and one that names two users. *)
Definition announcement : Message :=
  {| sample_everyone := true; sample_mentions := [] |}.
Definition greeting : Message :=
  {| sample_everyone := false;
     sample_mentions := [Some nameless; Some gopher_dm] |}.

(** A message whose mention list has a nil entry between two users. *)
Definition torn : Message :=
  {| sample_everyone := false;
     sample_mentions := [Some nameless; None; Some gopher_dm] |}.

(** The beginning of [torn], and [greeting] in the other order. *)
Definition torn_start : Message :=
  {| sample_everyone := false; sample_mentions := [Some nameless] |}.
Definition greeting_swapped : Message :=
  {| sample_everyone := false;
     sample_mentions := [Some gopher_dm; Some nameless] |}.

(** ** A second service, for the edges

    Its remote state counts the creations asked for.  Creation answers a
    nil channel and no error for the empty recipient ID, panics for the
    recipient boom, fails on the first attempt of any other recipient and
    succeeds afterwards.  Sending on a nil channel panics. *)

Definition flaky_create (recipientID : string) (r : nat)
  : outcome (ptr SampleChannel * option string) * nat :=
  if String.eqb recipientID "" then (Returned (None, None), S r)
  else if String.eqb recipientID "boom" then (Panicked, S r)
  else if Nat.eqb r 0 then
    (Returned (None, Some "503 Service Unavailable"), S r)
  else (Returned (Some {| sample_id := "dm-" ++ recipientID |}, None), S r).

Definition flaky_send (c : ptr SampleChannel) (content : string)
    (embed : ptr unit) (files : list (ptr string)) (r : nat)
  : outcome (ptr SampleMessage * option string) * nat :=
  match c with
  | None => (Panicked, r)
  | Some _ => (Returned (Some sample_reply, None), r)
  end.

Definition flaky_send_complex (c : ptr SampleChannel) (data : ptr string)
    (r : nat) : outcome (ptr SampleMessage * option string) * nat :=
  match c with
  | None => (Panicked, r)
  | Some _ => (Returned (Some sample_reply, None), r)
  end.

Definition flaky_messages (channelID : string) (limit : Z)
    (beforeID afterID aroundID : string) (r : nat)
  : outcome (list (ptr SampleMessage) * option string) * nat :=
  (Returned ([], None), r).

Definition flaky_service : Collaborators := {|
  Message := SampleMessage;
  MentionEveryone := sample_everyone;
  Mentions := sample_mentions;
  MessageEmbed := unit;
  File := string;
  MessageSend := string;
  errorValue := string;
  EndpointDefaultUserAvatar := fun d => "/embed/avatars/" ++ d;
  EndpointUserAvatarAnimated := fun uID aID => "/avatars/" ++ uID ++ "/" ++ aID;
  EndpointUserAvatar := fun uID aID => "/avatars/" ++ uID ++ "/" ++ aID;
  Remote := nat;
  UserChannelCreate := flaky_create;
  ChannelSendMessage := flaky_send;
  ChannelSendMessageComplex := flaky_send_complex;
  ChannelMessages := flaky_messages
|}.

Definition flaky_session : @Session sample_entities flaky_service :=
  @mkSession sample_entities flaky_service 0%nat [].

Definition boom : User := sample_user "boom" "" None.


(** * Properties *)

(** ** Strings *)

Lemma substring_whole_prefix (p rest : string) :
  substring 0 (String.length p) (p ++ rest) = p.
Proof.
  induction p as [|a p IH]; simpl.
  - destruct rest; reflexivity.
  - now rewrite IH.
Qed.

Lemma substring_split (n : nat) (s : string) :
  (n <= String.length s)%nat ->
  exists rest, s = substring 0 n s ++ rest.
Proof.
  revert s. induction n as [|n IH]; intros s Hn.
  - exists s. destruct s; reflexivity.
  - destruct s as [|a s]; simpl in Hn.
    + inversion Hn.
    + destruct (IH s) as [rest Hrest]; [now apply le_S_n|].
      exists rest. simpl. now rewrite <- Hrest.
Qed.

Lemma length_append (p rest : string) :
  String.length (p ++ rest) = (String.length p + String.length rest)%nat.
Proof.
  induction p as [|a p IH]; simpl; [reflexivity | now rewrite IH].
Qed.

(** [strings.HasPrefix] holds exactly of the strings that begin with the
    prefix. *)
Lemma HasPrefix_spec (s prefix : string) :
  HasPrefix s prefix = true <-> exists rest, s = prefix ++ rest.
Proof.
  unfold HasPrefix. rewrite andb_true_iff, Nat.leb_le, String.eqb_eq. split.
  - intros [Hlen Hsub].
    destruct (substring_split (String.length prefix) s Hlen) as [rest Hrest].
    exists rest. now rewrite Hsub in Hrest.
  - intros [rest ->]. split.
    + rewrite length_append. apply Nat.le_add_r.
    + apply substring_whole_prefix.
Qed.

Section PureProperties.

Context `{Collaborators}.

Lemma IsAvatarAnimated_spec (u : User) :
  IsAvatarAnimated u = true <-> exists rest, Avatar u = "a_" ++ rest.
Proof. apply HasPrefix_spec. Qed.

(** C4. [AvatarURL u size] is a URL chosen three ways, followed by the size
    parameter when there is one: the default-avatar endpoint of the
    discriminator when the avatar hash is empty; otherwise the
    animated-avatar endpoint of the ID and the hash when the hash begins
    with a_; otherwise the plain-avatar endpoint of the ID and the hash.
    The result is that URL when [size] is empty, and that URL followed by
    ?size= and [size] when it is not. *)
Theorem AvatarURL_three_way (u : User) (size : string) :
  exists URL : string,
    (Avatar u = "" ->
       URL = EndpointDefaultUserAvatar (Discriminator u)) /\
    (Avatar u <> "" -> (exists rest, Avatar u = "a_" ++ rest) ->
       URL = EndpointUserAvatarAnimated (ID u) (Avatar u)) /\
    (Avatar u <> "" -> ~ (exists rest, Avatar u = "a_" ++ rest) ->
       URL = EndpointUserAvatar (ID u) (Avatar u)) /\
    (size = "" -> AvatarURL u size = URL) /\
    (size <> "" -> AvatarURL u size = URL ++ "?size=" ++ size).
Proof.
  unfold AvatarURL.
  set (URL := if String.eqb (Avatar u) "" then _ else _).
  exists URL. subst URL.
  destruct (String.eqb_spec (Avatar u) "") as [Hempty | Hhash].
  - repeat split; try (intros; congruence);
      destruct (String.eqb_spec size ""); simpl; congruence.
  - destruct (HasPrefix (Avatar u) "a_") eqn:Hanim.
    + apply HasPrefix_spec in Hanim.
      repeat split; try (intros; congruence);
        try (intros ? Hno; now elim Hno);
        destruct (String.eqb_spec size ""); simpl; congruence.
    + assert (Hno : ~ (exists rest, Avatar u = "a_" ++ rest)).
      { intros Hex. apply HasPrefix_spec in Hex. congruence. }
      repeat split; try (intros; congruence);
        try (intros ? Hex; now elim Hno);
        destruct (String.eqb_spec size ""); simpl; congruence.
Qed.

(** ** Mentions *)

(** With no nil entry the loop does not panic. *)
Lemma mentions_loop_returns (uID : string) (mentions : list (ptr User)) :
  Forall (fun p => p <> None) mentions ->
  exists b, mentions_loop uID mentions = Returned b.
Proof.
  induction 1 as [|p rest Hp _ IH]; simpl.
  - now exists false.
  - destruct p as [user|]; [|congruence].
    destruct (String.eqb (ID user) uID); [now exists true | exact IH].
Qed.

(** The loop answers true only when it has met an entry with the ID. *)
Lemma mentions_loop_true_found (uID : string) (mentions : list (ptr User)) :
  mentions_loop uID mentions = Returned true ->
  exists user, In (Some user) mentions /\ ID user = uID.
Proof.
  induction mentions as [|p rest IH]; simpl; [discriminate|].
  destruct p as [user|]; [|discriminate].
  destruct (String.eqb_spec (ID user) uID) as [Heq | Hne]; intros Hrun.
  - exists user. split; [now left | exact Heq].
  - destruct (IH Hrun) as (user' & Hin & Hid).
    exists user'. split; [now right | exact Hid].
Qed.

(** With no nil entry, an entry with the ID makes the loop answer true. *)
Lemma mentions_loop_found_true (uID : string) (mentions : list (ptr User))
    (user : User) :
  Forall (fun p => p <> None) mentions ->
  In (Some user) mentions -> ID user = uID ->
  mentions_loop uID mentions = Returned true.
Proof.
  intros Hnonnil Hin Hid.
  induction Hnonnil as [|p rest Hp _ IH]; simpl; [contradiction|].
  destruct p as [user'|]; [|congruence].
  destruct (String.eqb_spec (ID user') uID) as [Heq | Hne]; [reflexivity|].
  destruct Hin as [Hhead | Htail]; [|now apply IH].
  congruence.
Qed.

(** C9. A message that mentions everyone mentions every user, whatever its
    mention list holds. *)
Theorem IsMentionedIn_everyone (u : User) (m : Message) :
  MentionEveryone m = true ->
  IsMentionedIn u (Some m) = Returned true.
Proof.
  intros Hall. unfold IsMentionedIn. now rewrite Hall.
Qed.

(** C3, amended. For a message whose mention list has no nil entry,
    [IsMentionedIn] returns, and returns true if and only if the message
    mentions everyone or some entry of the mention list has the ID of the
    user. *)
Theorem IsMentionedIn_iff (u : User) (m : Message) :
  Forall (fun p => p <> None) (Mentions m) ->
  exists b : bool,
    IsMentionedIn u (Some m) = Returned b /\
    (b = true <->
     MentionEveryone m = true \/
     exists user, In (Some user) (Mentions m) /\ ID user = ID u).
Proof.
  intros Hnonnil. unfold IsMentionedIn.
  destruct (MentionEveryone m) eqn:Hall.
  - exists true. split; [reflexivity|]. split; auto.
  - destruct (mentions_loop_returns (ID u) _ Hnonnil) as [b Hb].
    exists b. split; [exact Hb|]. split.
    + intros ->. right. now apply mentions_loop_true_found.
    + intros [Habs | (user & Hin & Hid)]; [discriminate|].
      rewrite (mentions_loop_found_true _ _ user Hnonnil Hin Hid) in Hb.
      congruence.
Qed.

End PureProperties.

(** ** Methods that use the session *)

Section SessionProperties.

Context `{Collaborators}.

Ltac run :=
  cbv [CreateDM SendMessage SendMessageComplex GetHistory
       session_UserChannelCreate channel_SendMessage
       channel_SendMessageComplex session_ChannelMessages
       invoke this deref panic assign_DMChannel
       bind ret Monad_M M_bind M_ret];
  cbn [result receiver session].

Ltac run_with Hdm :=
  run; repeat (rewrite Hdm; cbv beta iota; cbn [result receiver session]).

Lemma set_DMChannel_same (u : User) : set_DMChannel u (DMChannel u) = u.
Proof. now destruct u. Qed.

Lemma DMChannel_set (u : User) (channel : ptr Channel) :
  DMChannel (set_DMChannel u channel) = channel.
Proof. reflexivity. Qed.

Lemma history_grows (s : Session) (c : Call) (r : Remote) :
  record_call s c r <> s.
Proof.
  intros Heq. apply (f_equal history) in Heq. simpl in Heq.
  apply (f_equal (@List.length Call)) in Heq.
  rewrite length_app in Heq. simpl in Heq.
  rewrite Nat.add_1_r in Heq. now apply Nat.neq_succ_diag_l in Heq.
Qed.

(** [CreateDM] with a channel in place. *)
Lemma CreateDM_established (u : User) (s : Session) (c : Channel) :
  DMChannel u = Some c -> CreateDM u s = mkRes (Returned None) u s.
Proof. intros Hdm. now run_with Hdm. Qed.

(** [CreateDM] without one, by what the session answers. *)
Lemma CreateDM_nil (u : User) (s : Session) :
  DMChannel u = None ->
  CreateDM u s =
  match UserChannelCreate (ID u) (remote s) with
  | (Returned (channel, None), r1) =>
      mkRes (Returned None) (set_DMChannel u channel)
            (record_call s (CallUserChannelCreate (ID u)) r1)
  | (Returned (_, Some e), r1) =>
      mkRes (Returned (Some e)) u
            (record_call s (CallUserChannelCreate (ID u)) r1)
  | (Panicked, r1) =>
      mkRes Panicked u (record_call s (CallUserChannelCreate (ID u)) r1)
  end.
Proof.
  intros Hdm. run_with Hdm.
  destruct (UserChannelCreate (ID u) (remote s)) as [[[channel [e|]]|] r1];
    reflexivity.
Qed.

(** A call to a collaborator, spelt out. *)
Lemma invoke_run {A} (c : Call) (op : Remote -> outcome A * Remote)
    (u : User) (s : Session) :
  invoke c op u s
  = mkRes (fst (op (remote s))) u (record_call s c (snd (op (remote s)))).
Proof. unfold invoke. now destruct (op (remote s)). Qed.

(** [SendMessage] and [SendMessageComplex] with a channel in place. *)
Lemma SendMessage_established (u : User) (s : Session) (c : Channel)
    content embed files :
  DMChannel u = Some c ->
  SendMessage content embed files u s
  = channel_SendMessage (Some c) content embed files u s.
Proof. intros Hdm. now run_with Hdm. Qed.

Lemma SendMessageComplex_established (u : User) (s : Session) (c : Channel)
    data :
  DMChannel u = Some c ->
  SendMessageComplex data u s = channel_SendMessageComplex (Some c) data u s.
Proof. intros Hdm. now run_with Hdm. Qed.

(** [SendMessage] and [SendMessageComplex] without one, by what the session
    answers to the creation. *)
Lemma SendMessage_nil (u : User) (s : Session) content embed files :
  DMChannel u = None ->
  SendMessage content embed files u s =
  match UserChannelCreate (ID u) (remote s) with
  | (Returned (channel, None), r1) =>
      channel_SendMessage channel content embed files
        (set_DMChannel u channel)
        (record_call s (CallUserChannelCreate (ID u)) r1)
  | (Returned (_, Some e), r1) =>
      mkRes (Returned (None, Some e)) u
            (record_call s (CallUserChannelCreate (ID u)) r1)
  | (Panicked, r1) =>
      mkRes Panicked u (record_call s (CallUserChannelCreate (ID u)) r1)
  end.
Proof.
  intros Hdm. run_with Hdm.
  destruct (UserChannelCreate (ID u) (remote s)) as [[[channel [e|]]|] r1];
    reflexivity.
Qed.

Lemma SendMessageComplex_nil (u : User) (s : Session) data :
  DMChannel u = None ->
  SendMessageComplex data u s =
  match UserChannelCreate (ID u) (remote s) with
  | (Returned (channel, None), r1) =>
      channel_SendMessageComplex channel data
        (set_DMChannel u channel)
        (record_call s (CallUserChannelCreate (ID u)) r1)
  | (Returned (_, Some e), r1) =>
      mkRes (Returned (None, Some e)) u
            (record_call s (CallUserChannelCreate (ID u)) r1)
  | (Panicked, r1) =>
      mkRes Panicked u (record_call s (CallUserChannelCreate (ID u)) r1)
  end.
Proof.
  intros Hdm. run_with Hdm.
  destruct (UserChannelCreate (ID u) (remote s)) as [[[channel [e|]]|] r1];
    reflexivity.
Qed.

(** [GetHistory], by the DM channel. *)
Lemma GetHistory_established (u : User) (s : Session) (c : Channel)
    limit beforeID afterID aroundID :
  DMChannel u = Some c ->
  GetHistory limit beforeID afterID aroundID u s
  = session_ChannelMessages (ChannelID c) limit beforeID afterID aroundID u s.
Proof. intros Hdm. now run_with Hdm. Qed.

Lemma GetHistory_nil (u : User) (s : Session)
    limit beforeID afterID aroundID :
  DMChannel u = None ->
  GetHistory limit beforeID afterID aroundID u s = mkRes Panicked u s.
Proof. intros Hdm. now run_with Hdm. Qed.

(** Once a [CreateDM] has left a channel in place, the next one does
    nothing. *)
Lemma CreateDM_again (u : User) (s : Session) :
  DMChannel (receiver (CreateDM u s)) <> None ->
  CreateDM (receiver (CreateDM u s)) (session (CreateDM u s))
  = mkRes (Returned None) (receiver (CreateDM u s)) (session (CreateDM u s)).
Proof.
  intros Hset.
  destruct (DMChannel (receiver (CreateDM u s))) as [c|] eqn:Hdm;
    [|congruence].
  now apply CreateDM_established with c.
Qed.

(** C5. For a user without a DM channel, [CreateDM] makes one call, the
    creation of a DM channel with the ID of the user; when the session
    answers with no error the channel it returned is stored in [DMChannel]
    and [CreateDM] returns no error; when it answers with an error,
    [CreateDM] returns that error. *)
Theorem CreateDM_creates (u : User) (s : Session) :
  DMChannel u = None ->
  history (session (CreateDM u s))
  = (history s ++ [CallUserChannelCreate (ID u)])%list /\
  (forall channel r1,
     UserChannelCreate (ID u) (remote s) = (Returned (channel, None), r1) ->
     CreateDM u s
     = mkRes (Returned None) (set_DMChannel u channel)
             (record_call s (CallUserChannelCreate (ID u)) r1)) /\
  (forall channel e r1,
     UserChannelCreate (ID u) (remote s) = (Returned (channel, Some e), r1) ->
     CreateDM u s
     = mkRes (Returned (Some e)) u
             (record_call s (CallUserChannelCreate (ID u)) r1)).
Proof.
  intros Hdm. rewrite (CreateDM_nil u s Hdm). repeat split.
  - destruct (UserChannelCreate (ID u) (remote s)) as [[[channel [e|]]|] r1];
      reflexivity.
  - intros channel r1 ->. reflexivity.
  - intros channel e r1 ->. reflexivity.
Qed.


(** C7. With a DM channel [c] in place, [SendMessage] and
    [SendMessageComplex] are the call of the same name on [c] with the same
    arguments: same results, same effect on the session, user untouched.
    The same holds after a lazy creation that returned [c] and no error,
    for the user with [c] stored and the session the creation left. *)
Theorem send_is_delegation (u : User) (s : Session) (c : Channel)
    content embed files data :
  (DMChannel u = Some c ->
     SendMessage content embed files u s
     = mkRes (fst (ChannelSendMessage (Some c) content embed files (remote s)))
             u
             (record_call s (CallChannelSendMessage (Some c) content embed files)
                (snd (ChannelSendMessage (Some c) content embed files
                        (remote s)))) /\
     SendMessageComplex data u s
     = mkRes (fst (ChannelSendMessageComplex (Some c) data (remote s)))
             u
             (record_call s (CallChannelSendMessageComplex (Some c) data)
                (snd (ChannelSendMessageComplex (Some c) data (remote s))))) /\
  (forall r1,
     DMChannel u = None ->
     UserChannelCreate (ID u) (remote s) = (Returned (Some c, None), r1) ->
     SendMessage content embed files u s
     = channel_SendMessage (Some c) content embed files
         (set_DMChannel u (Some c))
         (record_call s (CallUserChannelCreate (ID u)) r1) /\
     SendMessageComplex data u s
     = channel_SendMessageComplex (Some c) data
         (set_DMChannel u (Some c))
         (record_call s (CallUserChannelCreate (ID u)) r1)).
Proof.
  split.
  - intros Hdm.
    rewrite (SendMessage_established u s c _ _ _ Hdm).
    rewrite (SendMessageComplex_established u s c _ Hdm).
    unfold channel_SendMessage, channel_SendMessageComplex.
    now rewrite !invoke_run.
  - intros r1 Hdm Hcreate.
    rewrite (SendMessage_nil u s _ _ _ Hdm).
    rewrite (SendMessageComplex_nil u s _ Hdm).
    now rewrite Hcreate.
Qed.

(** C8. With a DM channel [c] in place, [GetHistory] is the session's
    [ChannelMessages] on the ID of [c] and the four arguments as given:
    same results, same effect on the session, user untouched. *)
Theorem GetHistory_delegates (u : User) (s : Session) (c : Channel)
    limit beforeID afterID aroundID :
  DMChannel u = Some c ->
  GetHistory limit beforeID afterID aroundID u s
  = mkRes
      (fst (ChannelMessages (ChannelID c) limit beforeID afterID aroundID
              (remote s)))
      u
      (record_call s
         (CallChannelMessages (ChannelID c) limit beforeID afterID aroundID)
         (snd (ChannelMessages (ChannelID c) limit beforeID afterID aroundID
                 (remote s)))).
Proof.
  intros Hdm. rewrite (GetHistory_established u s c _ _ _ _ Hdm).
  unfold session_ChannelMessages. now rewrite invoke_run.
Qed.

(** C2. [GetHistory] reads [u.DMChannel.ID] unguarded: it panics on that
    dereference, before any call and with nothing changed, exactly when
    [DMChannel] is nil. *)
Theorem GetHistory_nil_dereference (u : User) (s : Session)
    limit beforeID afterID aroundID :
  GetHistory limit beforeID afterID aroundID u s = mkRes Panicked u s
  <-> DMChannel u = None.
Proof.
  split.
  - destruct (DMChannel u) as [c|] eqn:Hdm; [|reflexivity].
    rewrite (GetHistory_established u s c _ _ _ _ Hdm).
    unfold session_ChannelMessages. rewrite invoke_run.
    intros Heq. apply (f_equal session) in Heq. cbn [session] in Heq.
    now apply history_grows in Heq.
  - apply GetHistory_nil.
Qed.

(** C1, amended. [SendMessage] and [SendMessageComplex], on a user
    without a DM channel, begin by asking the session for one with the ID
    of the user; when the session answers with a channel and no error, that
    channel is stored in [DMChannel] and the delegated call is then made on
    it, as the second and last call. *)
Theorem lazy_DM_creation (u : User) (s : Session) content embed files data :
  DMChannel u = None ->
  creates_DM_first (SendMessage content embed files) u s /\
  creates_DM_first (SendMessageComplex data) u s /\
  (forall channel r1,
     UserChannelCreate (ID u) (remote s) = (Returned (channel, None), r1) ->
     receiver (SendMessage content embed files u s) = set_DMChannel u channel /\
     history (session (SendMessage content embed files u s))
     = (history s ++ [CallUserChannelCreate (ID u);
                      CallChannelSendMessage channel content embed files])%list /\
     receiver (SendMessageComplex data u s) = set_DMChannel u channel /\
     history (session (SendMessageComplex data u s))
     = (history s ++ [CallUserChannelCreate (ID u);
                      CallChannelSendMessageComplex channel data])%list).
Proof.
  intros Hdm. unfold creates_DM_first.
  rewrite (SendMessage_nil u s content embed files Hdm).
  rewrite (SendMessageComplex_nil u s data Hdm).
  unfold channel_SendMessage, channel_SendMessageComplex.
  split; [|split].
  - destruct (UserChannelCreate (ID u) (remote s)) as [[[channel [e|]]|] r1];
      rewrite ?invoke_run; cbn [session record_call history];
      rewrite <- ?app_assoc; eexists; reflexivity.
  - destruct (UserChannelCreate (ID u) (remote s)) as [[[channel [e|]]|] r1];
      rewrite ?invoke_run; cbn [session record_call history];
      rewrite <- ?app_assoc; eexists; reflexivity.
  - intros channel r1 Hcreate. rewrite Hcreate, !invoke_run.
    cbn [receiver session record_call history].
    rewrite <- !app_assoc. auto.
Qed.

(** C10. When the session answers the creation with an error, [CreateDM]
    returns it and leaves the user as it was, [DMChannel] still nil, and
    [SendMessage] and [SendMessageComplex] return a nil message with that
    error, the creation being the only call made. *)
Theorem creation_failure_propagates (u : User) (s : Session)
    (channel : ptr Channel) (e : errorValue) (r1 : Remote)
    content embed files data :
  DMChannel u = None ->
  UserChannelCreate (ID u) (remote s) = (Returned (channel, Some e), r1) ->
  CreateDM u s
  = mkRes (Returned (Some e)) u
          (record_call s (CallUserChannelCreate (ID u)) r1) /\
  DMChannel (receiver (CreateDM u s)) = None /\
  SendMessage content embed files u s
  = mkRes (Returned (None, Some e)) u
          (record_call s (CallUserChannelCreate (ID u)) r1) /\
  SendMessageComplex data u s
  = mkRes (Returned (None, Some e)) u
          (record_call s (CallUserChannelCreate (ID u)) r1).
Proof.
  intros Hdm Hcreate.
  rewrite (CreateDM_nil u s Hdm).
  rewrite (SendMessage_nil u s content embed files Hdm).
  rewrite (SendMessageComplex_nil u s data Hdm).
  rewrite Hcreate. cbn [receiver]. auto.
Qed.

End SessionProperties.

(** * Further properties of the accessors *)

(** ** Identity strings *)

Lemma append_cancel_r (a b c : string) : a ++ c = b ++ c -> a = b.
Proof.
  revert b. induction a as [|x a IH]; intros [|y b] Heq; simpl in Heq.
  - reflexivity.
  - apply (f_equal String.length) in Heq. simpl in Heq.
    rewrite length_append in Heq. lia.
  - apply (f_equal String.length) in Heq. simpl in Heq.
    rewrite length_append in Heq. lia.
  - injection Heq as -> Htail. now rewrite (IH b Htail).
Qed.

(** Two strings cut at a # sign, the parts after the sign holding none. *)
Lemma split_at_last_hash (a a' d d' : string) :
  (forall x y, d <> x ++ "#" ++ y) ->
  (forall x y, d' <> x ++ "#" ++ y) ->
  a ++ "#" ++ d = a' ++ "#" ++ d' -> a = a' /\ d = d'.
Proof.
  intros Hd Hd'. revert a'.
  induction a as [|c a IH]; intros [|c' a'] Heq; simpl in Heq.
  - injection Heq as ->. auto.
  - injection Heq as _ Htail. now elim (Hd a' d').
  - injection Heq as _ Htail. now elim (Hd' a d).
  - injection Heq as -> Htail.
    destruct (IH a' Htail) as [-> ->]. auto.
Qed.

Section AccessorProperties.

Context `{Collaborators}.

(** X1. [String] identifies the pair it is built from: two users whose
    discriminators hold no # sign and whose identity strings are equal have
    the same username and the same discriminator. *)
Theorem String_injective (u v : User) :
  (forall x y, Discriminator u <> x ++ "#" ++ y) ->
  (forall x y, Discriminator v <> x ++ "#" ++ y) ->
  String u = String v ->
  Username u = Username v /\ Discriminator u = Discriminator v.
Proof.
  unfold String. intros Hu Hv. now apply split_at_last_hash.
Qed.

(** X2. [Mention] identifies the user ID: users with equal mention strings
    have equal IDs. *)
Theorem Mention_injective (u v : User) :
  Mention u = Mention v -> ID u = ID v.
Proof.
  unfold Mention. simpl. intros Heq.
  injection Heq as Htail. now apply append_cancel_r with ">".
Qed.

(** X3. [AvatarURL] and [IsAvatarAnimated] agree: a user with no avatar hash
    is not animated; for an animated user the URL is the animated endpoint,
    and for a user with a hash that is not animated it is the plain one,
    each followed by the size parameter when there is one. *)
Theorem AvatarURL_follows_IsAvatarAnimated (u : User) (size : string) :
  (Avatar u = "" -> IsAvatarAnimated u = false) /\
  (IsAvatarAnimated u = true ->
     AvatarURL u size
     = if String.eqb size "" then EndpointUserAvatarAnimated (ID u) (Avatar u)
       else EndpointUserAvatarAnimated (ID u) (Avatar u) ++ "?size=" ++ size) /\
  (IsAvatarAnimated u = false -> Avatar u <> "" ->
     AvatarURL u size
     = if String.eqb size "" then EndpointUserAvatar (ID u) (Avatar u)
       else EndpointUserAvatar (ID u) (Avatar u) ++ "?size=" ++ size).
Proof.
  unfold IsAvatarAnimated, AvatarURL. split; [|split].
  - intros ->. reflexivity.
  - intros Hanim.
    destruct (String.eqb_spec (Avatar u) "") as [Hempty | _].
    + rewrite Hempty in Hanim. discriminate Hanim.
    + rewrite Hanim. now destruct (String.eqb size "").
  - intros Hplain Hhash.
    destruct (String.eqb_spec (Avatar u) "") as [Hempty | _];
      [contradiction|].
    rewrite Hplain. now destruct (String.eqb size "").
Qed.

(** ** The mention loop, entry by entry *)

(** Entries the loop steps over: non-nil, with another ID. *)
Lemma mentions_loop_skip (uID : string) (before rest : list (ptr User)) :
  Forall (fun p => exists w : User, p = Some w /\ ID w <> uID) before ->
  mentions_loop uID (before ++ rest)%list = mentions_loop uID rest.
Proof.
  induction 1 as [|p before (w & -> & Hw) _ IH]; simpl; [reflexivity|].
  now destruct (String.eqb_spec (ID w) uID).
Qed.

(** What the loop has seen when it stops. *)
Lemma mentions_loop_scan (uID : string) (mentions : list (ptr User)) :
  match mentions_loop uID mentions with
  | Returned true =>
      exists before user after,
        mentions = (before ++ Some user :: after)%list /\ ID user = uID /\
        Forall (fun p => exists w : User, p = Some w /\ ID w <> uID) before
  | Returned false =>
      Forall (fun p => exists w : User, p = Some w /\ ID w <> uID) mentions
  | Panicked =>
      exists before after,
        mentions = (before ++ None :: after)%list /\
        Forall (fun p => exists w : User, p = Some w /\ ID w <> uID) before
  end.
Proof.
  induction mentions as [|p rest IH]; simpl.
  - constructor.
  - destruct p as [w|].
    + destruct (String.eqb_spec (ID w) uID) as [Heq | Hne].
      * exists [], w, rest. repeat split; [exact Heq | constructor].
      * assert (Hw : exists w0 : User, Some w = Some w0 /\ ID w0 <> uID)
          by (exists w; auto).
        destruct (mentions_loop uID rest) as [[|]|].
        -- destruct IH as (before & user & after & -> & Hid & Hskip).
           exists (Some w :: before), user, after.
           repeat split; [exact Hid | now constructor].
        -- now constructor.
        -- destruct IH as (before & after & -> & Hskip).
           exists (Some w :: before), after. split; [reflexivity|].
           now constructor.
    + exists [], rest. split; [reflexivity | constructor].
Qed.

(** X4. [IsMentionedIn] answers true exactly when the message mentions
    everyone or its mention list holds an entry with the ID of the user
    that no nil entry and no earlier match precedes. *)
Theorem IsMentionedIn_true_exact (u : User) (m : Message) :
  IsMentionedIn u (Some m) = Returned true <->
  MentionEveryone m = true \/
  exists before user after,
    Mentions m = (before ++ Some user :: after)%list /\ ID user = ID u /\
    Forall (fun p => exists w : User, p = Some w /\ ID w <> ID u) before.
Proof.
  unfold IsMentionedIn. destruct (MentionEveryone m); split; auto.
  - intros Hrun. right.
    pose proof (mentions_loop_scan (ID u) (Mentions m)) as Hscan.
    now rewrite Hrun in Hscan.
  - intros [Habs | (before & user & after & -> & Hid & Hskip)];
      [discriminate|].
    rewrite (mentions_loop_skip _ _ _ Hskip). simpl.
    now destruct (String.eqb_spec (ID user) (ID u)).
Qed.

(** X5. [IsMentionedIn] answers false exactly when the message does not
    mention everyone and every entry of its mention list is a non-nil user
    with another ID. *)
Theorem IsMentionedIn_false_exact (u : User) (m : Message) :
  IsMentionedIn u (Some m) = Returned false <->
  MentionEveryone m = false /\
  Forall (fun p => exists w : User, p = Some w /\ ID w <> ID u) (Mentions m).
Proof.
  unfold IsMentionedIn. destruct (MentionEveryone m); split.
  - discriminate.
  - intros [Habs _]. discriminate.
  - intros Hrun. split; [reflexivity|].
    pose proof (mentions_loop_scan (ID u) (Mentions m)) as Hscan.
    now rewrite Hrun in Hscan.
  - intros [_ Hskip].
    rewrite <- (app_nil_r (Mentions m)).
    now rewrite (mentions_loop_skip _ _ _ Hskip).
Qed.

(** On a non-nil receiver, [IsMentionedIn] panics on a nil message, and on
    a message that does not mention everyone and whose mention list reaches
    a nil entry before any entry with the ID of the user. *)
Lemma IsMentionedIn_panics_value (u : User) (message : ptr Message) :
  IsMentionedIn u message = Panicked <->
  message = None \/
  exists m before after,
    message = Some m /\ MentionEveryone m = false /\
    Mentions m = (before ++ None :: after)%list /\
    Forall (fun p => exists w : User, p = Some w /\ ID w <> ID u) before.
Proof.
  unfold IsMentionedIn. destruct message as [m|]; split; auto.
  - destruct (MentionEveryone m) eqn:Hall; [discriminate|].
    intros Hrun. right.
    pose proof (mentions_loop_scan (ID u) (Mentions m)) as Hscan.
    rewrite Hrun in Hscan. destruct Hscan as (before & after & Hm & Hskip).
    now exists m, before, after.
  - intros [Habs | (m' & before & after & Hm & Hall & Hlist & Hskip)];
      [discriminate|].
    injection Hm as <-. rewrite Hall, Hlist.
    now rewrite (mentions_loop_skip _ _ _ Hskip).
Qed.

(** Through a non-nil receiver pointer the method is [IsMentionedIn]. *)
Lemma mentions_loop_ptr_Some (u : User) (mentions : list (ptr User)) :
  mentions_loop_ptr (Some u) mentions = mentions_loop (ID u) mentions.
Proof.
  induction mentions as [|[user|] rest IH]; simpl; try reflexivity.
  now rewrite IH.
Qed.

Lemma IsMentionedIn_ptr_Some (u : User) (message : ptr Message) :
  IsMentionedIn_ptr (Some u) message = IsMentionedIn u message.
Proof.
  destruct message as [m|]; simpl; [|reflexivity].
  now rewrite mentions_loop_ptr_Some.
Qed.

(** X6. [IsMentionedIn], called through a receiver pointer that may be
    nil, panics exactly in these cases: the message is nil; or the message
    does not mention everyone and either the receiver is nil and the
    mention list is not empty, or the receiver is not nil and the list
    reaches a nil entry before any entry with the ID of the receiver. *)
Theorem IsMentionedIn_panics_exact (p : ptr User) (message : ptr Message) :
  IsMentionedIn_ptr p message = Panicked <->
  message = None \/
  exists m,
    message = Some m /\ MentionEveryone m = false /\
    ((p = None /\ Mentions m <> []) \/
     exists u before after,
       p = Some u /\ Mentions m = (before ++ None :: after)%list /\
       Forall (fun q => exists w : User, q = Some w /\ ID w <> ID u) before).
Proof.
  destruct p as [u|].
  - rewrite IsMentionedIn_ptr_Some, IsMentionedIn_panics_value. split.
    + intros [Hnil | (m & before & after & Hm & Hall & Hlist & Hskip)];
        [now left|].
      right. exists m. repeat split; auto.
      right. now exists u, before, after.
    + intros [Hnil | (m & Hm & Hall & [[Habs _] | Hscan])];
        [now left | discriminate |].
      destruct Hscan as (u' & before & after & Hu & Hlist & Hskip).
      injection Hu as <-. right. now exists m, before, after.
  - destruct message as [m|]; simpl; [|split; auto].
    destruct (MentionEveryone m) eqn:Hall.
    + split; [discriminate|].
      intros [Habs | (m' & Hm & Hall' & _)]; [discriminate|].
      injection Hm as <-. congruence.
    + split.
      * intros Hrun. right. exists m. repeat split; auto. left.
        split; [reflexivity|]. intros Hempty. rewrite Hempty in Hrun.
        discriminate Hrun.
      * intros [Habs | (m' & Hm & _ & [[_ Hlist] | Hscan])];
          [discriminate | |].
        -- injection Hm as <-.
           destruct (Mentions m) as [|[user|] rest]; simpl;
             [contradiction | reflexivity | reflexivity].
        -- destruct Hscan as (u' & _ & _ & Habs & _). discriminate Habs.
Qed.

(** X7. A mention found stays found: when [IsMentionedIn] answers true for
    a message, it answers true for any message with the same everyone flag
    whose mention list continues that of the first. *)
Theorem IsMentionedIn_extends (u : User) (m m' : Message)
    (extra : list (ptr User)) :
  MentionEveryone m' = MentionEveryone m ->
  Mentions m' = (Mentions m ++ extra)%list ->
  IsMentionedIn u (Some m) = Returned true ->
  IsMentionedIn u (Some m') = Returned true.
Proof.
  unfold IsMentionedIn. intros -> ->.
  destruct (MentionEveryone m); [reflexivity|]. intros Hrun.
  pose proof (mentions_loop_scan (ID u) (Mentions m)) as Hscan.
  rewrite Hrun in Hscan.
  destruct Hscan as (before & user & after & -> & Hid & Hskip).
  rewrite <- app_assoc, (mentions_loop_skip _ _ _ Hskip). simpl.
  now destruct (String.eqb_spec (ID user) (ID u)).
Qed.

(** X8. With no nil entry, the order of the mention list does not matter:
    two messages with the same everyone flag whose mention lists are
    permutations of each other get the same answer. *)
Theorem IsMentionedIn_permutation (u : User) (m m' : Message) :
  Forall (fun p => p <> None) (Mentions m) ->
  MentionEveryone m' = MentionEveryone m ->
  Permutation (Mentions m) (Mentions m') ->
  IsMentionedIn u (Some m') = IsMentionedIn u (Some m).
Proof.
  unfold IsMentionedIn. intros Hnonnil -> Hperm.
  destruct (MentionEveryone m); [reflexivity|].
  assert (Hnonnil' : Forall (fun p => p <> None) (Mentions m'))
    by (eapply Permutation_Forall; eassumption).
  destruct (mentions_loop_returns (ID u) _ Hnonnil) as [b Hb].
  destruct (mentions_loop_returns (ID u) _ Hnonnil') as [b' Hb'].
  rewrite Hb, Hb'. f_equal.
  destruct b, b'; try reflexivity.
  - apply mentions_loop_true_found in Hb as (user & Hin & Hid).
    apply (Permutation_in _ Hperm) in Hin.
    rewrite (mentions_loop_found_true _ _ user Hnonnil' Hin Hid) in Hb'.
    discriminate Hb'.
  - apply mentions_loop_true_found in Hb' as (user & Hin & Hid).
    apply (Permutation_in _ (Permutation_sym Hperm)) in Hin.
    rewrite (mentions_loop_found_true _ _ user Hnonnil Hin Hid) in Hb.
    discriminate Hb.
Qed.

End AccessorProperties.

(** * Further properties of the methods that use the session *)

Section SessionEdges.

Context `{Collaborators}.

Ltac by_creation u s :=
  destruct (UserChannelCreate (ID u) (remote s)) as [[[channel [e|]]|] r1].

Ltac calls := unfold channel_SendMessage, channel_SendMessageComplex,
                session_ChannelMessages; rewrite ?invoke_run;
              cbn [result receiver session record_call history remote fst snd].

(** X9. The four methods change nothing of the user but [DMChannel], and
    [GetHistory] not even that. *)
Theorem methods_change_only_DMChannel (u : User) (s : Session)
    content embed files data limit beforeID afterID aroundID :
  receiver (CreateDM u s)
  = set_DMChannel u (DMChannel (receiver (CreateDM u s))) /\
  receiver (SendMessage content embed files u s)
  = set_DMChannel u
      (DMChannel (receiver (SendMessage content embed files u s))) /\
  receiver (SendMessageComplex data u s)
  = set_DMChannel u (DMChannel (receiver (SendMessageComplex data u s))) /\
  receiver (GetHistory limit beforeID afterID aroundID u s) = u.
Proof.
  destruct (DMChannel u) as [c|] eqn:Hdm.
  - rewrite (CreateDM_established u s c Hdm).
    rewrite (SendMessage_established u s c _ _ _ Hdm).
    rewrite (SendMessageComplex_established u s c _ Hdm).
    rewrite (GetHistory_established u s c _ _ _ _ Hdm).
    calls. now rewrite set_DMChannel_same.
  - rewrite (CreateDM_nil u s Hdm).
    rewrite (SendMessage_nil u s _ _ _ Hdm).
    rewrite (SendMessageComplex_nil u s _ Hdm).
    rewrite (GetHistory_nil u s _ _ _ _ Hdm).
    by_creation u s; calls; rewrite ?set_DMChannel_same; auto.
Qed.

(** X10. What a send leaves of the user is what [CreateDM] alone would
    leave: the sends touch the user only through the lazy creation. *)
Theorem send_leaves_user_as_CreateDM (u : User) (s : Session)
    content embed files data :
  receiver (SendMessage content embed files u s) = receiver (CreateDM u s) /\
  receiver (SendMessageComplex data u s) = receiver (CreateDM u s).
Proof.
  destruct (DMChannel u) as [c|] eqn:Hdm.
  - rewrite (CreateDM_established u s c Hdm).
    rewrite (SendMessage_established u s c _ _ _ Hdm).
    rewrite (SendMessageComplex_established u s c _ Hdm).
    calls. auto.
  - rewrite (CreateDM_nil u s Hdm).
    rewrite (SendMessage_nil u s _ _ _ Hdm).
    rewrite (SendMessageComplex_nil u s _ Hdm).
    by_creation u s; calls; auto.
Qed.

(** X11. The methods only add calls to those already made through the
    session: [CreateDM] and [GetHistory] at most one, the sends at most
    two. *)
Theorem calls_are_appended (u : User) (s : Session)
    content embed files data limit beforeID afterID aroundID :
  (exists made,
     history (session (CreateDM u s)) = (history s ++ made)%list /\
     (List.length made <= 1)%nat) /\
  (exists made,
     history (session (SendMessage content embed files u s))
     = (history s ++ made)%list /\ (List.length made <= 2)%nat) /\
  (exists made,
     history (session (SendMessageComplex data u s))
     = (history s ++ made)%list /\ (List.length made <= 2)%nat) /\
  (exists made,
     history (session (GetHistory limit beforeID afterID aroundID u s))
     = (history s ++ made)%list /\ (List.length made <= 1)%nat).
Proof.
  assert (Hnone : forall n, exists made : list Call,
             history s = (history s ++ made)%list /\ (List.length made <= n)%nat).
  { intros n. exists []. rewrite app_nil_r. split; [reflexivity | apply Nat.le_0_l]. }
  destruct (DMChannel u) as [c|] eqn:Hdm.
  - rewrite (CreateDM_established u s c Hdm).
    rewrite (SendMessage_established u s c _ _ _ Hdm).
    rewrite (SendMessageComplex_established u s c _ Hdm).
    rewrite (GetHistory_established u s c _ _ _ _ Hdm).
    calls. repeat split; try apply Hnone;
      eexists; (split; [reflexivity | simpl; lia]).
  - rewrite (CreateDM_nil u s Hdm).
    rewrite (SendMessage_nil u s _ _ _ Hdm).
    rewrite (SendMessageComplex_nil u s _ Hdm).
    rewrite (GetHistory_nil u s _ _ _ _ Hdm).
    by_creation u s; calls; rewrite <- ?app_assoc;
      repeat split; try apply Hnone;
      eexists; (split; [reflexivity | simpl; lia]).
Qed.

(** X12. A failed creation is not remembered: after a [CreateDM] that the
    session answered with an error the user is as before, and the next
    [CreateDM] asks the session again. *)
Theorem CreateDM_retries_after_failure (u : User) (s : Session)
    (channel : ptr Channel) (e : errorValue) (r1 : Remote) :
  DMChannel u = None ->
  UserChannelCreate (ID u) (remote s) = (Returned (channel, Some e), r1) ->
  receiver (CreateDM u s) = u /\
  history (session (CreateDM (receiver (CreateDM u s))
                             (session (CreateDM u s))))
  = (history s ++ [CallUserChannelCreate (ID u);
                   CallUserChannelCreate (ID u)])%list.
Proof.
  intros Hdm Hcreate.
  rewrite (CreateDM_nil u s Hdm), Hcreate. cbn [receiver session].
  split; [reflexivity|].
  rewrite (CreateDM_nil u _ Hdm). cbn [remote record_call].
  destruct (UserChannelCreate (ID u) r1) as [[[channel' [e'|]]|] r2];
    cbn [session history record_call]; now rewrite <- app_assoc.
Qed.

(** On a non-nil receiver, [CreateDM] panics when the user has no DM
    channel and the creation itself panics. *)
Lemma CreateDM_panics_value (u : User) (s : Session) :
  result (CreateDM u s) = Panicked <->
  DMChannel u = None /\
  fst (UserChannelCreate (ID u) (remote s)) = Panicked.
Proof.
  destruct (DMChannel u) as [c|] eqn:Hdm.
  - rewrite (CreateDM_established u s c Hdm). cbn [result].
    split; [discriminate | intros [Habs _]; discriminate].
  - rewrite (CreateDM_nil u s Hdm).
    by_creation u s; cbn [result fst]; split; auto;
      try discriminate; intros [_ Habs]; discriminate.
Qed.

(** X13. [CreateDM], called through a receiver pointer that may be nil,
    panics exactly when the receiver is nil, or the user has no DM channel
    and the creation itself panics.  On a nil receiver it panics before any
    call: the session is left as it was. *)
Theorem CreateDM_panics_iff (p : ptr User) (s : Session) :
  (ptr_result (CreateDM_ptr p s) = Panicked <->
   p = None \/
   exists u,
     p = Some u /\ DMChannel u = None /\
     fst (UserChannelCreate (ID u) (remote s)) = Panicked) /\
  (p = None -> ptr_session (CreateDM_ptr p s) = s).
Proof.
  split.
  - destruct p as [u|]; cbn [CreateDM_ptr ptr_result].
    + rewrite CreateDM_panics_value. split.
      * intros [Hdm Hcreate]. right. now exists u.
      * intros [Habs | (u' & Hu & Hdm & Hcreate)]; [discriminate|].
        injection Hu as <-. auto.
    + split; auto.
  - intros ->. reflexivity.
Qed.

(** X14. An error returned by [CreateDM] is the error of the creation: the
    user had no DM channel, the session answered the creation with that
    error, and the user is left as it was. *)
Theorem CreateDM_error_from_session (u : User) (s : Session)
    (err : errorValue) :
  result (CreateDM u s) = Returned (Some err) ->
  DMChannel u = None /\
  receiver (CreateDM u s) = u /\
  exists channel,
    fst (UserChannelCreate (ID u) (remote s)) = Returned (channel, Some err).
Proof.
  destruct (DMChannel u) as [c|] eqn:Hdm.
  - rewrite (CreateDM_established u s c Hdm). discriminate.
  - rewrite (CreateDM_nil u s Hdm).
    by_creation u s; cbn [result receiver fst]; try discriminate.
    intros Heq. injection Heq as ->. repeat split. now exists channel.
Qed.

(** X15. No error from [CreateDM] does not promise a channel: it returns
    nil and leaves [DMChannel] nil exactly when the user had no DM channel
    and the session answered the creation with a nil channel and a nil
    error. *)
Theorem CreateDM_nil_channel_without_error (u : User) (s : Session) :
  result (CreateDM u s) = Returned None /\
  DMChannel (receiver (CreateDM u s)) = None
  <->
  DMChannel u = None /\
  fst (UserChannelCreate (ID u) (remote s)) = Returned (None, None).
Proof.
  destruct (DMChannel u) as [c|] eqn:Hdm.
  - rewrite (CreateDM_established u s c Hdm). cbn [result receiver].
    rewrite Hdm. split; intros [Ha Hb]; discriminate.
  - rewrite (CreateDM_nil u s Hdm).
    by_creation u s; cbn [result receiver fst]; rewrite ?DMChannel_set;
      split; intros [Ha Hb]; try discriminate; subst; auto.
    injection Hb as ->. auto.
Qed.

(** X16. When the session answers the creation with a nil channel and a
    nil error, the sends go on: the delegated call is made on the nil
    channel, and the user still has no DM channel. *)
Theorem send_on_nil_channel (u : User) (s : Session) (r1 : Remote)
    content embed files data :
  DMChannel u = None ->
  UserChannelCreate (ID u) (remote s) = (Returned (None, None), r1) ->
  SendMessage content embed files u s
  = channel_SendMessage None content embed files u
      (record_call s (CallUserChannelCreate (ID u)) r1) /\
  SendMessageComplex data u s
  = channel_SendMessageComplex None data u
      (record_call s (CallUserChannelCreate (ID u)) r1).
Proof.
  intros Hdm Hcreate.
  rewrite (SendMessage_nil u s _ _ _ Hdm).
  rewrite (SendMessageComplex_nil u s _ Hdm).
  rewrite Hcreate, <- Hdm, set_DMChannel_same. auto.
Qed.

(** X17. A panic of the creation goes through [CreateDM] and both sends:
    each panics with the user as it was, the creation being the only call
    made. *)
Theorem creation_panic_propagates (u : User) (s : Session) (r1 : Remote)
    content embed files data :
  DMChannel u = None ->
  UserChannelCreate (ID u) (remote s) = (Panicked, r1) ->
  CreateDM u s
  = mkRes Panicked u (record_call s (CallUserChannelCreate (ID u)) r1) /\
  SendMessage content embed files u s
  = mkRes Panicked u (record_call s (CallUserChannelCreate (ID u)) r1) /\
  SendMessageComplex data u s
  = mkRes Panicked u (record_call s (CallUserChannelCreate (ID u)) r1).
Proof.
  intros Hdm Hcreate.
  rewrite (CreateDM_nil u s Hdm).
  rewrite (SendMessage_nil u s _ _ _ Hdm).
  rewrite (SendMessageComplex_nil u s _ Hdm).
  rewrite Hcreate. auto.
Qed.

(** X18. The channel is created once: after a send that created the DM
    channel [c], a second send on the same user and session makes one more
    call, the delegated one on [c], and no creation. *)
Theorem DM_channel_is_cached (u : User) (s : Session) (c : Channel)
    (r1 : Remote) content embed files content' embed' files' :
  DMChannel u = None ->
  UserChannelCreate (ID u) (remote s) = (Returned (Some c, None), r1) ->
  history
    (session
       (SendMessage content' embed' files'
          (receiver (SendMessage content embed files u s))
          (session (SendMessage content embed files u s))))
  = (history s ++ [CallUserChannelCreate (ID u);
                   CallChannelSendMessage (Some c) content embed files;
                   CallChannelSendMessage (Some c) content' embed' files'])%list.
Proof.
  intros Hdm Hcreate.
  rewrite (SendMessage_nil u s _ _ _ Hdm), Hcreate. calls.
  rewrite (SendMessage_established _ _ c _ _ _ (DMChannel_set u (Some c))).
  calls. now rewrite <- !app_assoc.
Qed.

(** X19. [GetHistory] is safe after a [CreateDM] that created the channel
    [c]: it does not panic on the dereference but asks the session for the
    messages of [c]. *)
Theorem GetHistory_after_CreateDM (u : User) (s : Session) (c : Channel)
    (r1 : Remote) limit beforeID afterID aroundID :
  DMChannel u = None ->
  UserChannelCreate (ID u) (remote s) = (Returned (Some c, None), r1) ->
  GetHistory limit beforeID afterID aroundID
    (receiver (CreateDM u s)) (session (CreateDM u s))
  = session_ChannelMessages (ChannelID c) limit beforeID afterID aroundID
      (set_DMChannel u (Some c))
      (record_call s (CallUserChannelCreate (ID u)) r1).
Proof.
  intros Hdm Hcreate.
  rewrite (CreateDM_nil u s Hdm), Hcreate. cbn [receiver session].
  now apply GetHistory_established.
Qed.

End SessionEdges.

(** * The properties on the concrete instance *)

(** C1 as stated fails for [GetHistory]: on a user without a DM channel it
    asks the session for none, stores none, and panics. *)
Lemma GetHistory_creates_no_DM :
  DMChannel gopher = None /\
  ~ creates_DM_first (GetHistory 50 "" "" "") gopher sample_session /\
  DMChannel (receiver (GetHistory 50 "" "" "" gopher sample_session)) = None /\
  result (GetHistory 50 "" "" "" gopher sample_session) = Panicked.
Proof.
  split; [reflexivity|]. split; [|split; reflexivity].
  intros [rest Hrest]. vm_compute in Hrest. discriminate Hrest.
Qed.

Lemma lazy_DM_creation_witness :
  DMChannel gopher = None /\
  creates_DM_first (SendMessage "hi" None []) gopher sample_session /\
  DMChannel (receiver (SendMessage "hi" None [] gopher sample_session))
  = Some dm7 /\
  history (session (SendMessageComplex (Some "hi") gopher sample_session))
  = [CallUserChannelCreate "7";
     CallChannelSendMessageComplex (Some dm7) (Some "hi")].
Proof.
  destruct (lazy_DM_creation gopher sample_session "hi" None [] (Some "hi")
              eq_refl) as (Hfirst & _ & Hstore).
  destruct (Hstore (Some dm7) [] eq_refl) as (Hrecv & _ & _ & Hhist).
  split; [reflexivity|]. split; [exact Hfirst|]. split.
  - rewrite Hrecv. reflexivity.
  - rewrite Hhist. reflexivity.
Defined.

Lemma GetHistory_nil_dereference_witness :
  GetHistory 50 "" "" "" gopher sample_session
  = mkRes Panicked gopher sample_session.
Proof.
  apply (GetHistory_nil_dereference gopher sample_session 50 "" "" "").
  reflexivity.
Defined.

(** C3 as stated fails on a message to everyone: the user counts as
    mentioned although the mention list is empty. *)
Lemma IsMentionedIn_not_membership :
  IsMentionedIn gopher (Some announcement) = Returned true /\
  ~ (exists user,
       In (Some user) (Mentions announcement) /\ ID user = ID gopher).
Proof.
  split; [reflexivity|]. intros (user & Hin & _). exact Hin.
Qed.

Lemma IsMentionedIn_iff_witness :
  Forall (fun p : ptr User => p <> None) (Mentions greeting) /\
  IsMentionedIn gopher (Some greeting) = Returned true.
Proof.
  assert (Hnonnil : Forall (fun p : ptr User => p <> None) (Mentions greeting))
    by (repeat constructor; discriminate).
  split; [exact Hnonnil|].
  destruct (IsMentionedIn_iff gopher greeting Hnonnil) as (b & Hrun & Hb).
  rewrite Hrun. f_equal. apply Hb. right.
  exists gopher_dm. split; [right; left; reflexivity | reflexivity].
Defined.

Lemma AvatarURL_three_way_witness :
  AvatarURL gopher "128" = "https://cdn.example/avatars/7/a_ff.gif?size=128"
  /\ AvatarURL nameless "" = "https://cdn.example/embed/avatars/0042.png".
Proof.
  split.
  - destruct (AvatarURL_three_way gopher "128")
      as (URL & _ & Hanimated & _ & _ & Hsize).
    rewrite Hsize by discriminate.
    rewrite Hanimated;
      [reflexivity | discriminate | exists "ff"; reflexivity].
  - destruct (AvatarURL_three_way nameless "")
      as (URL & Hdefault & _ & _ & Hbare & _).
    rewrite Hbare by reflexivity.
    rewrite Hdefault by reflexivity. reflexivity.
Defined.

Lemma CreateDM_creates_witness :
  DMChannel gopher = None /\
  CreateDM gopher sample_session
  = mkRes (Returned None) gopher_dm
          {| remote := []; history := [CallUserChannelCreate "7"] |} /\
  result (CreateDM nameless sample_session) = Returned (Some "Unknown User").
Proof.
  split; [reflexivity|]. split.
  - destruct (CreateDM_creates gopher sample_session eq_refl)
      as (_ & Hstored & _).
    rewrite (Hstored (Some dm7) [] eq_refl). reflexivity.
  - destruct (CreateDM_creates nameless sample_session eq_refl)
      as (_ & _ & Hfailed).
    rewrite (Hfailed None "Unknown User" [] eq_refl). reflexivity.
Defined.



Lemma send_is_delegation_witness :
  DMChannel gopher_dm = Some dm7 /\
  result (SendMessage "hi" None [] gopher_dm sample_session)
  = Returned (Some sample_reply, None) /\
  DMChannel gopher = None /\
  SendMessageComplex (Some "hi") gopher sample_session
  = mkRes (Returned (Some sample_reply, None)) gopher_dm
      {| remote := ["hi"];
         history := [CallUserChannelCreate "7";
                     CallChannelSendMessageComplex (Some dm7) (Some "hi")] |}.
Proof.
  split; [reflexivity|]. split; [|split; [reflexivity|]].
  - destruct (send_is_delegation gopher_dm sample_session dm7
                "hi" None [] (Some "hi")) as [Hplace _].
    destruct (Hplace eq_refl) as [Hsend _].
    rewrite Hsend. reflexivity.
  - destruct (send_is_delegation gopher sample_session dm7
                "hi" None [] (Some "hi")) as [_ Hlazy].
    destruct (Hlazy [] eq_refl eq_refl) as [_ Hcomplex].
    rewrite Hcomplex. reflexivity.
Defined.

Lemma GetHistory_delegates_witness :
  DMChannel gopher_dm = Some dm7 /\
  GetHistory 50 "" "" "" gopher_dm sample_session
  = mkRes (Returned ([Some sample_reply], None)) gopher_dm
      {| remote := [];
         history := [CallChannelMessages "dm-7" 50 "" "" ""] |}.
Proof.
  split; [reflexivity|].
  rewrite (GetHistory_delegates gopher_dm sample_session dm7 50 "" "" ""
             eq_refl).
  reflexivity.
Defined.

Lemma IsMentionedIn_everyone_witness :
  MentionEveryone announcement = true /\
  IsMentionedIn nameless (Some announcement) = Returned true.
Proof.
  split; [reflexivity|].
  exact (IsMentionedIn_everyone nameless announcement eq_refl).
Defined.

Lemma creation_failure_propagates_witness :
  DMChannel nameless = None /\
  UserChannelCreate (ID nameless) (remote sample_session)
  = (Returned (None, Some "Unknown User"), []) /\
  SendMessage "hi" None [] nameless sample_session
  = mkRes (Returned (None, Some "Unknown User")) nameless
      {| remote := []; history := [CallUserChannelCreate ""] |}.
Proof.
  split; [reflexivity|]. split; [reflexivity|].
  destruct (creation_failure_propagates nameless sample_session
              None "Unknown User" [] "hi" None [] (Some "hi")
              eq_refl eq_refl) as (_ & _ & Hsend & _).
  rewrite Hsend. reflexivity.
Defined.

(** * The further properties on the concrete instances *)

Ltac no_hash :=
  let x := fresh "x" in
  let y := fresh "y" in
  let Heq := fresh "Heq" in
  intros x y Heq;
  repeat (destruct x as [|? x]; simpl in Heq;
          [discriminate Heq | injection Heq as _ Heq]);
  destruct x; discriminate Heq.

Lemma String_injective_witness :
  (forall x y, Discriminator gopher <> x ++ "#" ++ y) /\
  (forall x y, Discriminator gopher_dm <> x ++ "#" ++ y) /\
  String gopher = String gopher_dm /\
  Username gopher = Username gopher_dm /\
  Discriminator gopher = Discriminator gopher_dm.
Proof.
  assert (Hu : forall x y, Discriminator gopher <> x ++ "#" ++ y) by no_hash.
  assert (Hv : forall x y, Discriminator gopher_dm <> x ++ "#" ++ y)
    by no_hash.
  split; [exact Hu|]. split; [exact Hv|]. split; [reflexivity|].
  exact (String_injective gopher gopher_dm Hu Hv eq_refl).
Defined.

Lemma Mention_injective_witness :
  Mention gopher = Mention gopher_dm /\ ID gopher = ID gopher_dm.
Proof.
  split; [reflexivity|].
  exact (Mention_injective gopher gopher_dm eq_refl).
Defined.

Lemma AvatarURL_follows_IsAvatarAnimated_witness :
  IsAvatarAnimated gopher = true /\
  AvatarURL gopher "128" = "https://cdn.example/avatars/7/a_ff.gif?size=128" /\
  Avatar nameless = "" /\ IsAvatarAnimated nameless = false.
Proof.
  split; [reflexivity|]. split; [|split; [reflexivity|]].
  - destruct (AvatarURL_follows_IsAvatarAnimated gopher "128")
      as (_ & Hanimated & _).
    rewrite (Hanimated eq_refl). reflexivity.
  - destruct (AvatarURL_follows_IsAvatarAnimated nameless "")
      as (Hnone & _).
    exact (Hnone eq_refl).
Defined.

Lemma IsMentionedIn_true_exact_witness :
  IsMentionedIn gopher (Some greeting) = Returned true.
Proof.
  apply (IsMentionedIn_true_exact gopher greeting). right.
  exists [Some nameless], gopher_dm, []. repeat split.
  constructor; [|constructor]. exists nameless. split; [reflexivity|].
  discriminate.
Defined.

Lemma IsMentionedIn_false_exact_witness :
  IsMentionedIn boom (Some greeting) = Returned false.
Proof.
  apply (IsMentionedIn_false_exact boom greeting). split; [reflexivity|].
  repeat constructor.
  - exists nameless. split; [reflexivity | discriminate].
  - exists gopher_dm. split; [reflexivity | discriminate].
Defined.

Lemma IsMentionedIn_panics_exact_witness :
  IsMentionedIn_ptr (Some gopher) (Some torn) = Panicked /\
  IsMentionedIn_ptr None (Some greeting) = Panicked /\
  IsMentionedIn_ptr (Some gopher) (Some greeting) <> Panicked.
Proof.
  split; [|split].
  - apply (IsMentionedIn_panics_exact (Some gopher) (Some torn)). right.
    exists torn. split; [reflexivity|]. split; [reflexivity|]. right.
    exists gopher, [Some nameless], [Some gopher_dm]. repeat split.
    constructor; [|constructor]. exists nameless.
    split; [reflexivity | discriminate].
  - apply (IsMentionedIn_panics_exact None (Some greeting)). right.
    exists greeting. split; [reflexivity|]. split; [reflexivity|]. left.
    split; [reflexivity | discriminate].
  - intros Hpanic.
    apply (IsMentionedIn_panics_exact (Some gopher) (Some greeting)) in Hpanic.
    destruct Hpanic as [Habs | (m & Hm & _ & [[Habs _] | Hscan])];
      try discriminate Habs.
    destruct Hscan as (u & before & after & _ & Hlist & _).
    injection Hm as <-.
    destruct before as [|? [|? [|? before]]]; discriminate Hlist.
Defined.

Lemma IsMentionedIn_extends_witness :
  MentionEveryone torn = MentionEveryone torn_start /\
  Mentions torn = (Mentions torn_start ++ [None; Some gopher_dm])%list /\
  IsMentionedIn nameless (Some torn_start) = Returned true /\
  IsMentionedIn nameless (Some torn) = Returned true.
Proof.
  repeat (split; [reflexivity|]).
  apply (IsMentionedIn_extends nameless torn_start torn
           [None; Some gopher_dm]); reflexivity.
Defined.

Lemma IsMentionedIn_permutation_witness :
  Forall (fun p : ptr User => p <> None) (Mentions greeting) /\
  MentionEveryone greeting_swapped = MentionEveryone greeting /\
  Permutation (Mentions greeting) (Mentions greeting_swapped) /\
  IsMentionedIn gopher (Some greeting_swapped)
  = IsMentionedIn gopher (Some greeting).
Proof.
  assert (Hnonnil : Forall (fun p : ptr User => p <> None) (Mentions greeting))
    by (repeat constructor; discriminate).
  assert (Hperm : Permutation (Mentions greeting) (Mentions greeting_swapped))
    by apply perm_swap.
  split; [exact Hnonnil|]. split; [reflexivity|]. split; [exact Hperm|].
  exact (IsMentionedIn_permutation gopher greeting greeting_swapped
           Hnonnil eq_refl Hperm).
Defined.

Lemma CreateDM_retries_after_failure_witness :
  DMChannel nameless = None /\
  UserChannelCreate (ID nameless) (remote sample_session)
  = (Returned (None, Some "Unknown User"), []) /\
  history (session (CreateDM (receiver (CreateDM nameless sample_session))
                             (session (CreateDM nameless sample_session))))
  = [CallUserChannelCreate ""; CallUserChannelCreate ""].
Proof.
  split; [reflexivity|]. split; [reflexivity|].
  exact (proj2 (CreateDM_retries_after_failure nameless sample_session
                  None "Unknown User" [] eq_refl eq_refl)).
Defined.

Lemma CreateDM_panics_iff_witness :
  ptr_result
    (@CreateDM_ptr sample_entities flaky_service (Some boom) flaky_session)
  = Panicked /\
  ptr_result (CreateDM_ptr None sample_session) = Panicked /\
  ptr_session (CreateDM_ptr None sample_session) = sample_session.
Proof.
  split; [|split].
  - apply (@CreateDM_panics_iff sample_entities flaky_service (Some boom)
             flaky_session).
    right. exists boom. repeat split.
  - apply (CreateDM_panics_iff None sample_session). now left.
  - exact (proj2 (CreateDM_panics_iff None sample_session) eq_refl).
Defined.

Lemma CreateDM_error_from_session_witness :
  result (CreateDM nameless sample_session) = Returned (Some "Unknown User") /\
  receiver (CreateDM nameless sample_session) = nameless.
Proof.
  split; [reflexivity|].
  exact (proj1 (proj2 (CreateDM_error_from_session nameless sample_session
                         "Unknown User" eq_refl))).
Defined.

Lemma CreateDM_nil_channel_without_error_witness :
  result (@CreateDM sample_entities flaky_service nameless flaky_session)
  = Returned None /\
  DMChannel
    (receiver (@CreateDM sample_entities flaky_service nameless flaky_session))
  = None.
Proof.
  apply (@CreateDM_nil_channel_without_error sample_entities flaky_service
           nameless flaky_session).
  split; reflexivity.
Defined.

Lemma send_on_nil_channel_witness :
  DMChannel nameless = None /\
  @UserChannelCreate sample_entities flaky_service (ID nameless)
    (remote flaky_session) = (Returned (None, None), 1%nat) /\
  @SendMessage sample_entities flaky_service "hi" None [] nameless
    flaky_session
  = mkRes Panicked nameless
      (@mkSession sample_entities flaky_service 1%nat
         [CallUserChannelCreate ""; CallChannelSendMessage None "hi" None []]).
Proof.
  split; [reflexivity|]. split; [reflexivity|].
  rewrite (proj1 (@send_on_nil_channel sample_entities flaky_service
                    nameless flaky_session 1%nat "hi" None [] None
                    eq_refl eq_refl)).
  reflexivity.
Defined.

Lemma creation_panic_propagates_witness :
  DMChannel boom = None /\
  @UserChannelCreate sample_entities flaky_service (ID boom)
    (remote flaky_session) = (Panicked, 1%nat) /\
  @SendMessageComplex sample_entities flaky_service (Some "hi") boom
    flaky_session
  = mkRes Panicked boom
      (@mkSession sample_entities flaky_service 1%nat
         [CallUserChannelCreate "boom"]).
Proof.
  split; [reflexivity|]. split; [reflexivity|].
  exact (proj2 (proj2 (@creation_panic_propagates sample_entities
                         flaky_service boom flaky_session 1%nat
                         "hi" None [] (Some "hi") eq_refl eq_refl))).
Defined.

Lemma DM_channel_is_cached_witness :
  DMChannel gopher = None /\
  UserChannelCreate (ID gopher) (remote sample_session)
  = (Returned (Some dm7, None), []) /\
  history
    (session
       (SendMessage "again" None []
          (receiver (SendMessage "hi" None [] gopher sample_session))
          (session (SendMessage "hi" None [] gopher sample_session))))
  = [CallUserChannelCreate "7";
     CallChannelSendMessage (Some dm7) "hi" None [];
     CallChannelSendMessage (Some dm7) "again" None []].
Proof.
  split; [reflexivity|]. split; [reflexivity|].
  exact (DM_channel_is_cached gopher sample_session dm7 []
           "hi" None [] "again" None [] eq_refl eq_refl).
Defined.

Lemma GetHistory_after_CreateDM_witness :
  DMChannel gopher = None /\
  UserChannelCreate (ID gopher) (remote sample_session)
  = (Returned (Some dm7, None), []) /\
  result (GetHistory 50 "" "" ""
            (receiver (CreateDM gopher sample_session))
            (session (CreateDM gopher sample_session)))
  = Returned ([Some sample_reply], None).
Proof.
  split; [reflexivity|]. split; [reflexivity|].
  rewrite (GetHistory_after_CreateDM gopher sample_session dm7 []
             50 "" "" "" eq_refl eq_refl).
  reflexivity.
Defined.
